(** * minnie-janus: the base plugin (handle) behaviour

    A shallow embedding of the base plugin of minnie-janus: the
    [properties] object, the [methods] object ([attach], [detach], [send],
    [sendMessage], [sendJsep], [sendTrickle], [hangup], [receive] and the
    hooks [onAttached] and [onDetached]) and the initializer [init].

    JavaScript objects that travel as messages are finite maps from
    property names to values.  The handle ([this]) is a record with one
    field per property the code reads or writes.  A method is a function
    from the world (the handle and the trace of calls made on the
    collaborators so far) to the settled outcome of the promise the
    [async] method returns, together with the world it leaves behind. *)

From stdpp Require Import gmap strings list fin_maps pretty.
From Stdlib Require Import ZArith.

Local Open Scope string_scope.
Local Open Scope list_scope.

(** ** JavaScript values

    Numbers are the integers (handle ids, codes); fractions, NaN and
    function values do not occur in the messages of the protocol. *)

#[warnings="-register-all"]
Inductive value : Type :=
  | VUndefined
  | VNull
  | VBool (b : bool)
  | VNum (z : Z)
  | VStr (s : string)
  | VArr (l : list value)
  | VObj (o : gmap string value).

(** ToBoolean, as the test [if (jsep)] applies it. *)
Definition to_boolean (v : value) : bool :=
  match v with
  | VUndefined | VNull => false
  | VBool b => b
  | VNum z => negb (Z.eqb z 0)
  | VStr s => negb (String.eqb s "")
  | VArr _ | VObj _ => true
  end.

(** ToString, as a template literal applies it to [${msg}]. *)
Fixpoint to_string (v : value) : string :=
  match v with
  | VUndefined => "undefined"
  | VNull => "null"
  | VBool true => "true"
  | VBool false => "false"
  | VNum z => pretty z
  | VStr s => s
  | VArr l =>
      (fix join (l : list value) : string :=
         match l with
         | [] => ""
         | x :: r =>
             let sx := match x with
                       | VUndefined | VNull => ""
                       | _ => to_string x
                       end in
             match r with
             | [] => sx
             | _ => (sx ++ "," ++ join r)%string
             end
         end) l
  | VObj _ => "[object Object]"
  end.

(** ** Outcomes of promises *)

(** What a promise can be rejected with: the TypeError of reading property
    [prop] of [undefined] or [null], or the reason some collaborator
    rejected with. *)
Inductive error : Type :=
  | TypeError (prop : string)
  | Reason (r : value).

Inductive outcome (A : Type) : Type :=
  | Resolved (a : A)
  | Rejected (e : error).
Arguments Resolved {A} a.
Arguments Rejected {A} e.

(** [v.k] for a property name [k] that is neither an index nor a built-in
    property of a primitive or an array (the code reads [data] and [id]
    only). *)
Definition get_prop (v : value) (k : string) : outcome value :=
  match v with
  | VUndefined | VNull => Rejected (TypeError k)
  | VObj o => Resolved (default VUndefined (o !! k))
  | VBool _ | VNum _ | VStr _ | VArr _ => Resolved VUndefined
  end.

(** ** Collaborators *)

(** The injected logger.  The default of [init] is the object whose four
    hooks have empty bodies; any other logger is known by a tag, and the
    calls made on it are recorded.  A hook, once found, returns normally. *)
Inductive Logger : Type :=
  | NoopLogger
  | Injected (tag : nat).

Inductive level : Type := Info | Warn | Debug | Error.

(** The Session, of which the handle uses [send] only: [session_send s m]
    is how the promise returned by [s.send(m)] settles. *)
Record Session : Type := {
  session_key : nat;
  session_send : gmap string value -> outcome value;
}.

(** Calls the handle makes on its collaborators and on its own hooks. *)
Inductive event : Type :=
  | ELog (tag : nat) (lvl : level) (text : string)
  | ESend (key : nat) (msg : gmap string value)
  | ECall (method : string)
  | EEmit (name : string).

Module BasePlugin.

(** ** The handle *)

(** [session], [id], [name], [label] and [attached] are the keys of
    [properties]; [logger] is the member [init] assigns; [log] is the
    property the methods [sendMessage], [sendJsep], [sendTrickle],
    [hangup] and [receive] read.  [None] is a property that holds [null]
    or is absent. *)
Record Handle : Type := {
  session : option Session;
  id : value;
  name : value;
  label : value;
  attached : bool;
  logger : option Logger;
  log : option Logger;
}.

Definition properties : Handle := {|
  session := None;
  id := VNull;
  name := VStr "unset";
  label := VStr "unset";
  attached := false;
  logger := None;
  log := None;
|}.

Definition set_session (s : option Session) (h : Handle) : Handle :=
  {| session := s; id := id h; name := name h; label := label h;
     attached := attached h; logger := logger h; log := log h |}.

Definition set_id (v : value) (h : Handle) : Handle :=
  {| session := session h; id := v; name := name h; label := label h;
     attached := attached h; logger := logger h; log := log h |}.

Definition set_attached (b : bool) (h : Handle) : Handle :=
  {| session := session h; id := id h; name := name h; label := label h;
     attached := b; logger := logger h; log := log h |}.

Definition set_logger (l : option Logger) (h : Handle) : Handle :=
  {| session := session h; id := id h; name := name h; label := label h;
     attached := attached h; logger := l; log := log h |}.

(** [init({logger = {info() {}, ...}} = {})]: [None] is a call without a
    logger, which takes the default. *)
Definition init (arg : option Logger) (h : Handle) : Handle :=
  set_logger (Some (default NoopLogger arg)) h.

(** A handle as the exported parts build it: [properties], then [init]. *)
Definition new_handle (arg : option Logger) : Handle := init arg properties.

(** ** Worlds and the method monad *)

Record World : Type := {
  this : Handle;
  trace : list event;
}.

Definition M (A : Type) : Type := World -> outcome A * World.

Definition ret {A} (a : A) : M A := fun w => (Resolved a, w).

Definition throw {A} (e : error) : M A := fun w => (Rejected e, w).

(** Sequencing, and [await]: a rejection ends the method and leaves the
    world as it is at that point. *)
Definition bind {A B} (m : M A) (k : A -> M B) : M B :=
  fun w =>
    match m w with
    | (Resolved a, w') => k a w'
    | (Rejected e, w') => (Rejected e, w')
    end.

Notation "x <- m ;; k" := (bind m (fun x => k))
  (at level 100, m at next level, right associativity).
Notation "m ;;; k" := (bind m (fun _ => k))
  (at level 100, right associativity).

Definition read {A} (f : Handle -> A) : M A :=
  fun w => (Resolved (f (this w)), w).

Definition update (f : Handle -> Handle) : M unit :=
  fun w => (Resolved tt, {| this := f (this w); trace := trace w |}).

Definition tell (es : list event) : M unit :=
  fun w => (Resolved tt, {| this := this w; trace := trace w ++ es |}).

Definition lift {A} (o : outcome A) : M A := fun w => (o, w).

(** What a call of hook [lvl] on logger [l] leaves in the trace. *)
Definition log_events (l : Logger) (lvl : level) (text : string) : list event :=
  match l with
  | NoopLogger => []
  | Injected tag => [ELog tag lvl text]
  end.

(** [o.debug(text)] for the logger object held by a property of [this]. *)
Definition call_debug (o : option Logger) (text : string) : M unit :=
  match o with
  | None => throw (TypeError "debug")
  | Some l => tell (log_events l Debug text)
  end.

(** [this.logger.debug(text)] *)
Definition logger_debug (text : string) : M unit :=
  o <- read logger ;; call_debug o text.

(** [this.log.debug(text)] *)
Definition log_debug (text : string) : M unit :=
  o <- read log ;; call_debug o text.

(** [await this.session.send(msg)] *)
Definition session_send_call (msg : gmap string value) : M value :=
  o <- read session ;;
  match o with
  | None => throw (TypeError "send")
  | Some s => tell [ESend (session_key s) msg] ;;; lift (session_send s msg)
  end.

(** [this.emit(name)], the method the event emitter mixes in: the trace
    keeps what was published; the subscribers are not part of the plugin. *)
Definition emit (ev : string) : M unit := tell [EEmit ev].

(** ** The methods *)

Definition onAttached : M unit :=
  tell [ECall "onAttached"] ;;;
  logger_debug "onAttached() abstract method called".

Definition onDetached : M unit :=
  tell [ECall "onDetached"] ;;;
  logger_debug "onDetached() abstract method called".

Definition attach_msg (plugin : value) : gmap string value :=
  <["plugin" := plugin]> {["janus" := VStr "attach"]}.

Definition attach (s : Session) : M value :=
  logger_debug "attach()" ;;;
  update (set_session (Some s)) ;;;
  plugin <- read name ;;
  let msg := attach_msg plugin in
  response <- session_send_call msg ;;
  data <- lift (get_prop response "data") ;;
  i <- lift (get_prop data "id") ;;
  update (set_id i) ;;;
  update (set_attached true) ;;;
  onAttached ;;;
  emit "attached" ;;;
  ret response.

Definition send (obj : gmap string value) : M value :=
  logger_debug "send()" ;;;
  i <- read id ;;
  session_send_call (<["handle_id" := i]> obj).

Definition detach : M value :=
  logger_debug "detach()" ;;;
  _ <- send {["janus" := VStr "detach"]} ;;
  update (set_attached false) ;;;
  onDetached ;;;
  emit "detached" ;;;
  ret VUndefined.

Definition message_msg (body jsep : value) : gmap string value :=
  let msg := <["body" := body]> {["janus" := VStr "message"]} in
  if to_boolean jsep then <["jsep" := jsep]> msg else msg.

Definition sendMessage (body jsep : value) : M value :=
  let body := match body with VUndefined => VObj ∅ | _ => body end in
  let msg := message_msg body jsep in
  log_debug "sendMessage()" ;;;
  send msg.

Definition sendJsep (jsep : value) : M value :=
  log_debug "sendJsep()" ;;;
  sendMessage (VObj ∅) jsep.

Definition sendTrickle (candidate : value) : M value :=
  log_debug "sendTrickle()" ;;;
  send (<["candidate" := candidate]> {["janus" := VStr "trickle"]}).

Definition hangup : M value :=
  log_debug "hangup()" ;;;
  send {["janus" := VStr "hangup"]}.

Definition receive (msg : value) : M value :=
  log_debug ("Abstract method 'receive' called with message " ++ to_string msg)%string ;;;
  ret VUndefined.

(** ** Observations on traces *)

(** The messages handed to [Session.send], oldest first, each with the key
    of the session that got it. *)
Definition sent (tr : list event) : list (nat * gmap string value) :=
  flat_map (fun e => match e with ESend k m => [(k, m)] | _ => [] end) tr.

Definition is_call (m : string) (e : event) : bool :=
  match e with ECall m' => String.eqb m m' | _ => false end.

Definition is_emit (ev : string) (e : event) : bool :=
  match e with EEmit ev' => String.eqb ev ev' | _ => false end.

(** How often hook [m] was invoked, and how often event [ev] was emitted. *)
Definition calls (m : string) (tr : list event) : nat :=
  length (List.filter (is_call m) tr).

Definition emits (ev : string) (tr : list event) : nat :=
  length (List.filter (is_emit ev) tr).

(** ** Sample collaborators and handles *)

Definition success_reply (n : Z) : value :=
  VObj (<["data" := VObj {["id" := VNum n]}]> {["janus" := VStr "success"]}).

Definition ack_reply : value := VObj {["janus" := VStr "ack"]}.

Definition error_reply : value :=
  VObj (<["error" := VObj {["code" := VNum 403]}]> {["janus" := VStr "error"]}).

(** A session whose gateway grants every attach request the handle id [n]
    and acknowledges every other request. *)
Definition gateway (key : nat) (n : Z) : Session := {|
  session_key := key;
  session_send := fun m =>
    match m !! "janus" with
    | Some (VStr verb) =>
        if String.eqb verb "attach" then Resolved (success_reply n)
        else Resolved ack_reply
    | _ => Resolved ack_reply
    end;
|}.

(** A session whose every request is rejected with the gateway's error. *)
Definition refusing (key : nat) : Session := {|
  session_key := key;
  session_send := fun _ => Rejected (Reason error_reply);
|}.

(** The handle [init] built, after an attach that session [s] answered
    with handle id [i]. *)
Definition attached_handle (arg : option Logger) (s : Session) (i : value) : Handle :=
  set_attached true (set_id i (set_session (Some s) (new_handle arg))).

Definition detach_msg (i : value) : gmap string value :=
  <["handle_id" := i]> {["janus" := VStr "detach"]}.

(** The events a completed attach adds to the trace. *)
Definition attach_events (l : Logger) (s : Session) (plugin : value) : list event :=
  log_events l Debug "attach()" ++
  [ESend (session_key s) (attach_msg plugin); ECall "onAttached"] ++
  log_events l Debug "onAttached() abstract method called" ++
  [EEmit "attached"].

(** The events a completed detach adds to the trace. *)
Definition detach_events (l : Logger) (s : Session) (i : value) : list event :=
  log_events l Debug "detach()" ++
  log_events l Debug "send()" ++
  [ESend (session_key s) (detach_msg i); ECall "onDetached"] ++
  log_events l Debug "onDetached() abstract method called" ++
  [EEmit "detached"].

(** A handle on which a [log] member was put from outside, as a plugin
    built on the base may do. *)
Definition set_log (l : option Logger) (h : Handle) : Handle :=
  {| session := session h; id := id h; name := name h; label := label h;
     attached := attached h; logger := logger h; log := l |}.

(** A session whose every request settles as [o]. *)
Definition answering (key : nat) (o : outcome value) : Session := {|
  session_key := key;
  session_send := fun _ => o;
|}.

(** The body [sendMessage] works with: the default [{}] replaces an
    argument that is [undefined], and no other. *)
Definition body_or_default (body : value) : value :=
  match body with VUndefined => VObj ∅ | _ => body end.

(** Between trace [tr] and the later trace [tr'] at most one message went to
    a session. *)
Definition at_most_one_sent (tr tr' : list event) : Prop :=
  exists ms : list (nat * gmap string value),
    sent tr' = sent tr ++ ms /\ length ms <= 1.

(** ** Equations of the monad and of the calls on collaborators *)

Lemma bind_resolved {A B} (m : M A) (k : A -> M B) (w w' : World) (a : A) :
  m w = (Resolved a, w') -> bind m k w = k a w'.
Proof. intros H. unfold bind. now rewrite H. Qed.

Lemma bind_rejected {A B} (m : M A) (k : A -> M B) (w w' : World) (e : error) :
  m w = (Rejected e, w') -> bind m k w = (Rejected e, w').
Proof. intros H. unfold bind. now rewrite H. Qed.

Lemma logger_debug_some (w : World) (l : Logger) (text : string) :
  logger (this w) = Some l ->
  logger_debug text w =
  (Resolved tt, {| this := this w; trace := trace w ++ log_events l Debug text |}).
Proof. intros H. unfold logger_debug, bind, read. now rewrite H. Qed.

Lemma logger_debug_none (w : World) (text : string) :
  logger (this w) = None ->
  logger_debug text w = (Rejected (TypeError "debug"), w).
Proof. intros H. unfold logger_debug, bind, read. now rewrite H. Qed.

Lemma log_debug_some (w : World) (l : Logger) (text : string) :
  log (this w) = Some l ->
  log_debug text w =
  (Resolved tt, {| this := this w; trace := trace w ++ log_events l Debug text |}).
Proof. intros H. unfold log_debug, bind, read. now rewrite H. Qed.

Lemma log_debug_none (w : World) (text : string) :
  log (this w) = None ->
  log_debug text w = (Rejected (TypeError "debug"), w).
Proof. intros H. unfold log_debug, bind, read. now rewrite H. Qed.

Lemma session_send_call_some (w : World) (s : Session) (msg : gmap string value) :
  session (this w) = Some s ->
  session_send_call msg w =
  (session_send s msg,
   {| this := this w; trace := trace w ++ [ESend (session_key s) msg] |}).
Proof.
  intros H. unfold session_send_call, bind, read. rewrite H. simpl.
  now destruct (session_send s msg).
Qed.

Lemma session_send_call_none (w : World) (msg : gmap string value) :
  session (this w) = None ->
  session_send_call msg w = (Rejected (TypeError "send"), w).
Proof. intros H. unfold session_send_call, bind, read. now rewrite H. Qed.

Lemma get_prop_obj (o : gmap string value) (k : string) (v : value) :
  o !! k = Some v -> get_prop (VObj o) k = Resolved v.
Proof. intros H. unfold get_prop. now rewrite H. Qed.

(** ** Observations distribute over the concatenation of traces *)

Lemma sent_app (t1 t2 : list event) : sent (t1 ++ t2) = sent t1 ++ sent t2.
Proof. unfold sent. apply flat_map_app. Qed.

Lemma calls_app (m : string) (t1 t2 : list event) :
  calls m (t1 ++ t2) = calls m t1 + calls m t2.
Proof. unfold calls. now rewrite List.filter_app, length_app. Qed.

Lemma emits_app (ev : string) (t1 t2 : list event) :
  emits ev (t1 ++ t2) = emits ev t1 + emits ev t2.
Proof. unfold emits. now rewrite List.filter_app, length_app. Qed.

Lemma sent_log_events (l : Logger) (lvl : level) (text : string) :
  sent (log_events l lvl text) = [].
Proof. now destruct l. Qed.

Lemma calls_log_events (m : string) (l : Logger) (lvl : level) (text : string) :
  calls m (log_events l lvl text) = 0.
Proof. now destruct l. Qed.

Lemma emits_log_events (ev : string) (l : Logger) (lvl : level) (text : string) :
  emits ev (log_events l lvl text) = 0.
Proof. now destruct l. Qed.

(** ** The runs of [send], [attach] and [detach] *)

(** With a logger and a session in place [send] logs, stamps and
    delegates; the promise settles as the session's does. *)
Lemma send_run (h : Handle) (l : Logger) (s : Session) (tr : list event)
    (obj : gmap string value) :
  logger h = Some l -> session h = Some s ->
  send obj {| this := h; trace := tr |} =
  (session_send s (<["handle_id" := id h]> obj),
   {| this := h;
      trace := tr ++ log_events l Debug "send()" ++
               [ESend (session_key s) (<["handle_id" := id h]> obj)] |}).
Proof.
  intros Hl Hs. unfold send.
  erewrite bind_resolved by (apply logger_debug_some; exact Hl).
  unfold bind at 1, read at 1. cbn [this trace].
  rewrite (session_send_call_some _ s) by exact Hs.
  cbn [this trace]. now rewrite <- app_assoc.
Qed.

(** Without a session [send] rejects at the read of [this.session.send]. *)
Lemma send_run_no_session (h : Handle) (l : Logger) (tr : list event)
    (obj : gmap string value) :
  logger h = Some l -> session h = None ->
  send obj {| this := h; trace := tr |} =
  (Rejected (TypeError "send"),
   {| this := h; trace := tr ++ log_events l Debug "send()" |}).
Proof.
  intros Hl Hs. unfold send.
  erewrite bind_resolved by (apply logger_debug_some; exact Hl).
  unfold bind at 1, read at 1. cbn [this trace].
  now rewrite session_send_call_none by exact Hs.
Qed.

Lemma attach_run_resolved (h : Handle) (l : Logger) (s : Session)
    (tr : list event) (ro d : gmap string value) (n : value) :
  logger h = Some l ->
  session_send s (attach_msg (name h)) = Resolved (VObj ro) ->
  ro !! "data" = Some (VObj d) -> d !! "id" = Some n ->
  attach s {| this := h; trace := tr |} =
  (Resolved (VObj ro),
   {| this := set_attached true (set_id n (set_session (Some s) h));
      trace := tr ++ attach_events l s (name h) |}).
Proof.
  intros Hl Hs Hd Hi.
  unfold attach, onAttached, emit, logger_debug, session_send_call.
  unfold bind, read, update, tell, lift, ret. simpl.
  rewrite Hl. simpl. rewrite Hs.
  rewrite (get_prop_obj _ _ _ Hd), (get_prop_obj _ _ _ Hi). simpl.
  rewrite Hl. simpl. unfold attach_events.
  repeat rewrite <- app_assoc. reflexivity.
Qed.

Lemma attach_run_rejected (h : Handle) (l : Logger) (s : Session)
    (tr : list event) (e : error) :
  logger h = Some l ->
  session_send s (attach_msg (name h)) = Rejected e ->
  attach s {| this := h; trace := tr |} =
  (Rejected e,
   {| this := set_session (Some s) h;
      trace := tr ++ log_events l Debug "attach()" ++
               [ESend (session_key s) (attach_msg (name h))] |}).
Proof.
  intros Hl Hs. unfold attach.
  erewrite bind_resolved by (apply logger_debug_some; exact Hl).
  unfold bind at 1, update at 1. cbn [this trace].
  unfold bind at 1, read at 1. cbn [this trace].
  apply bind_rejected.
  rewrite (session_send_call_some _ s) by reflexivity.
  cbn [this trace set_session name]. rewrite Hs. now rewrite <- app_assoc.
Qed.

Lemma detach_run_resolved (h : Handle) (l : Logger) (s : Session)
    (tr : list event) (r : value) :
  logger h = Some l -> session h = Some s ->
  session_send s (detach_msg (id h)) = Resolved r ->
  detach {| this := h; trace := tr |} =
  (Resolved VUndefined,
   {| this := set_attached false h;
      trace := tr ++ detach_events l s (id h) |}).
Proof.
  intros Hl Hs Hr. unfold detach.
  erewrite bind_resolved by (apply logger_debug_some; exact Hl).
  cbn [this trace].
  erewrite bind_resolved; cycle 1.
  { rewrite (send_run h l s) by assumption. fold (detach_msg (id h)).
    rewrite Hr. reflexivity. }
  unfold onDetached, emit, logger_debug, bind, read, update, tell, ret.
  simpl. rewrite Hl. simpl. unfold detach_events.
  repeat rewrite <- app_assoc. reflexivity.
Qed.

Lemma detach_run_rejected (h : Handle) (l : Logger) (s : Session)
    (tr : list event) (e : error) :
  logger h = Some l -> session h = Some s ->
  session_send s (detach_msg (id h)) = Rejected e ->
  detach {| this := h; trace := tr |} =
  (Rejected e,
   {| this := h;
      trace := tr ++ log_events l Debug "detach()" ++
               log_events l Debug "send()" ++
               [ESend (session_key s) (detach_msg (id h))] |}).
Proof.
  intros Hl Hs Hr. unfold detach.
  erewrite bind_resolved by (apply logger_debug_some; exact Hl).
  cbn [this trace]. apply bind_rejected.
  rewrite (send_run h l s) by assumption. fold (detach_msg (id h)).
  rewrite Hr. now rewrite <- app_assoc.
Qed.

(** No method assigns [this.log] or [this.logger]: what [init] left there
    is what every later call finds. *)
Lemma attach_keeps_loggers (s : Session) (w : World) :
  log (this (snd (attach s w))) = log (this w) /\
  logger (this (snd (attach s w))) = logger (this w).
Proof.
  destruct w as [h tr].
  unfold attach, onAttached, emit, logger_debug, session_send_call.
  unfold bind, read, update, tell, lift, ret, call_debug, throw. simpl.
  destruct (logger h) as [l|] eqn:Hl; simpl; [|now rewrite Hl].
  destruct (session_send s (attach_msg (name h))) as [r|e]; simpl;
    [|now rewrite Hl].
  destruct (get_prop r "data") as [d|e]; simpl; [|now rewrite Hl].
  destruct (get_prop d "id") as [i|e]; simpl; [|now rewrite Hl].
  rewrite Hl. simpl. now rewrite Hl.
Qed.

Lemma send_keeps_handle (obj : gmap string value) (w : World) :
  this (snd (send obj w)) = this w.
Proof.
  destruct w as [h tr].
  unfold send, logger_debug, session_send_call.
  unfold bind, read, tell, lift, call_debug, throw. simpl.
  destruct (logger h) as [l|]; simpl; [|reflexivity].
  destruct (session h) as [s|]; simpl; [|reflexivity].
  now destruct (session_send s (<["handle_id" := id h]> obj)).
Qed.

Lemma detach_keeps_loggers (w : World) :
  log (this (snd (detach w))) = log (this w) /\
  logger (this (snd (detach w))) = logger (this w).
Proof.
  destruct w as [h tr]. cbn [this].
  destruct (logger h) as [l|] eqn:Hl.
  - destruct (session h) as [s|] eqn:Hs.
    + destruct (session_send s (detach_msg (id h))) as [r|e] eqn:Hr.
      * rewrite (detach_run_resolved h l s tr r) by assumption.
        now split.
      * rewrite (detach_run_rejected h l s tr e) by assumption.
        now split.
    + unfold detach.
      erewrite bind_resolved by (apply logger_debug_some; exact Hl).
      erewrite bind_rejected by (apply send_run_no_session; eassumption).
      now split.
  - unfold detach.
    erewrite bind_rejected by (apply logger_debug_none; exact Hl).
    now split.
Qed.

(** Whatever comes back, [attach] hands exactly one message to the session
    it was given: the attach request.  The flag [attached] is not looked at. *)
Lemma attach_sent (h : Handle) (l : Logger) (s : Session) (tr : list event) :
  logger h = Some l ->
  sent (trace (snd (attach s {| this := h; trace := tr |}))) =
  sent tr ++ [(session_key s, attach_msg (name h))].
Proof.
  intros Hl.
  unfold attach, onAttached, emit, logger_debug, session_send_call.
  unfold bind, read, update, tell, lift, ret. simpl.
  rewrite Hl. simpl.
  destruct (session_send s (attach_msg (name h))) as [r|e]; simpl.
  - destruct (get_prop r "data") as [d|e]; simpl.
    + destruct (get_prop d "id") as [i|e]; simpl.
      * rewrite Hl. simpl.
        now rewrite !sent_app, !sent_log_events, !app_nil_r.
      * now rewrite !sent_app, !sent_log_events, !app_nil_r.
    + now rewrite !sent_app, !sent_log_events, !app_nil_r.
  - now rewrite !sent_app, !sent_log_events, !app_nil_r.
Qed.

(** With a [log] member in place, which [init] does not provide,
    [sendMessage] logs and sends the message it built. *)
Lemma sendMessage_run_with_log (h : Handle) (l l' : Logger) (s : Session)
    (tr : list event) (body jsep : value) :
  log h = Some l' -> logger h = Some l -> session h = Some s ->
  body <> VUndefined ->
  sendMessage body jsep {| this := h; trace := tr |} =
  (session_send s (<["handle_id" := id h]> (message_msg body jsep)),
   {| this := h;
      trace := tr ++ log_events l' Debug "sendMessage()" ++
               log_events l Debug "send()" ++
               [ESend (session_key s)
                  (<["handle_id" := id h]> (message_msg body jsep))] |}).
Proof.
  intros Hlog Hl Hs Hb. unfold sendMessage.
  erewrite bind_resolved by (apply log_debug_some; exact Hlog).
  cbn [this trace]. rewrite (send_run h l s) by assumption.
  rewrite <- app_assoc. now destruct body.
Qed.

(** The five methods that log through [this.log] stop at that line when
    the handle has no [log] member: nothing is sent, nothing changes. *)
Lemma log_methods_need_log (w : World) (body jsep candidate msg : value) :
  log (this w) = None ->
  sendMessage body jsep w = (Rejected (TypeError "debug"), w) /\
  sendJsep jsep w = (Rejected (TypeError "debug"), w) /\
  sendTrickle candidate w = (Rejected (TypeError "debug"), w) /\
  hangup w = (Rejected (TypeError "debug"), w) /\
  receive msg w = (Rejected (TypeError "debug"), w).
Proof.
  intros Hlog.
  repeat split; apply bind_rejected; now apply log_debug_none.
Qed.

(** The message [sendMessage] builds carries [jsep] exactly when the
    argument is truthy, and always the verb and the body. *)
Lemma message_msg_jsep (body jsep : value) :
  message_msg body jsep !! "jsep" = (if to_boolean jsep then Some jsep else None) /\
  message_msg body jsep !! "janus" = Some (VStr "message") /\
  message_msg body jsep !! "body" = Some body.
Proof.
  unfold message_msg. destruct (to_boolean jsep); repeat split;
    by simplify_map_eq.
Qed.

Example to_string_samples :
  to_string (VArr [VNum 1; VNull; VStr "a"]) = "1,,a" /\
  to_string (VObj {["janus" := VStr "event"]}) = "[object Object]" /\
  to_string (VNum (-7)) = "-7".
Proof. repeat split. Qed.

(** The round trip of the specification: a gateway that grants the handle id
    42, then acknowledges the detach. *)
Example attach_detach_round_trip :
  let w0 := {| this := new_handle None; trace := [] |} in
  let w1 := snd (attach (gateway 1 42) w0) in
  let w2 := snd (detach w1) in
  this w1 = attached_handle None (gateway 1 42) (VNum 42) /\
  emits "attached" (trace w1) = 1 /\
  this w2 = set_attached false (attached_handle None (gateway 1 42) (VNum 42)) /\
  emits "detached" (trace w2) = 1 /\
  sent (trace w2) =
    [(1, attach_msg (VStr "unset")); (1, detach_msg (VNum 42))].
Proof. cbv zeta. repeat split. Qed.

(** * The claims *)

(** C5. With its logger and session in place, [send(obj)] hands the session
    the object [obj] with the field [handle_id] set to the handle's [id], one
    message and no other, and its promise settles exactly as the promise of
    [Session.send] does; the handle is left as it was. *)
Theorem send_stamps_handle_id (h : Handle) (l : Logger) (s : Session)
    (tr : list event) (obj : gmap string value) :
  logger h = Some l -> session h = Some s ->
  let res := send obj {| this := h; trace := tr |} in
  fst res = session_send s (<["handle_id" := id h]> obj) /\
  this (snd res) = h /\
  sent (trace (snd res)) =
    sent tr ++ [(session_key s, <["handle_id" := id h]> obj)] /\
  (<["handle_id" := id h]> obj : gmap string value) !! "handle_id" = Some (id h) /\
  (forall k : string, k <> "handle_id" ->
     (<["handle_id" := id h]> obj : gmap string value) !! k = obj !! k).
Proof.
  intros Hl Hs res. subst res. rewrite (send_run h l s) by assumption.
  cbn [fst snd this trace]. repeat split.
  - now rewrite !sent_app, sent_log_events.
  - apply lookup_insert_eq.
  - intros k Hk. now apply lookup_insert_ne.
Qed.

Lemma send_stamps_handle_id_witness :
  let h := attached_handle None (gateway 1 42) (VNum 42) in
  let obj : gmap string value := {["janus" := VStr "hangup"]} in
  let res := send obj {| this := h; trace := [] |} in
  fst res = session_send (gateway 1 42) (<["handle_id" := VNum 42]> obj) /\
  this (snd res) = h /\
  sent (trace (snd res)) = [] ++ [(1, <["handle_id" := VNum 42]> obj)] /\
  (<["handle_id" := VNum 42]> obj : gmap string value) !! "handle_id" = Some (VNum 42) /\
  (forall k : string, k <> "handle_id" ->
     (<["handle_id" := VNum 42]> obj : gmap string value) !! k = obj !! k).
Proof.
  exact (send_stamps_handle_id (attached_handle None (gateway 1 42) (VNum 42))
           NoopLogger (gateway 1 42) [] {["janus" := VStr "hangup"]}
           eq_refl eq_refl).
Defined.

(** C1. On a handle that holds the logger [init] assigned, a fresh one
    ([attached] false, [id] null) in particular, when the session resolves
    the attach request with a reply [r] whose [data.id] is [n],
    [attach(session)] resolves with [r], leaves [attached] true and [id]
    equal to [n], invokes the hook [onAttached] once and emits the event
    attached once. *)
Theorem attach_resolves (h : Handle) (l : Logger) (s : Session)
    (tr : list event) (ro d : gmap string value) (n : value) :
  logger h = Some l ->
  session_send s (attach_msg (name h)) = Resolved (VObj ro) ->
  ro !! "data" = Some (VObj d) -> d !! "id" = Some n ->
  let res := attach s {| this := h; trace := tr |} in
  fst res = Resolved (VObj ro) /\
  attached (this (snd res)) = true /\
  id (this (snd res)) = n /\
  calls "onAttached" (trace (snd res)) = calls "onAttached" tr + 1 /\
  emits "attached" (trace (snd res)) = emits "attached" tr + 1.
Proof.
  intros Hl Hs Hd Hi res. subst res.
  rewrite (attach_run_resolved h l s tr ro d n) by assumption.
  cbn [fst snd this trace]. unfold attach_events. repeat split.
  - rewrite !calls_app, !calls_log_events. reflexivity.
  - rewrite !emits_app, !emits_log_events. reflexivity.
Qed.

Lemma attach_resolves_witness :
  let res := attach (gateway 1 42) {| this := new_handle None; trace := [] |} in
  fst res = Resolved (success_reply 42) /\
  attached (this (snd res)) = true /\
  id (this (snd res)) = VNum 42 /\
  calls "onAttached" (trace (snd res)) = calls "onAttached" [] + 1 /\
  emits "attached" (trace (snd res)) = emits "attached" [] + 1.
Proof.
  exact (attach_resolves (new_handle None) NoopLogger (gateway 1 42) []
           (<["data" := VObj {["id" := VNum 42]}]> {["janus" := VStr "success"]})
           {["id" := VNum 42]} (VNum 42)
           eq_refl eq_refl eq_refl eq_refl).
Defined.

(** C2. On a fresh handle, when the session rejects the attach request,
    [attach] rejects with the session's reason; [attached] is still false and
    [id] still null, the hook [onAttached] is not invoked and the event
    attached is not emitted. *)
Theorem attach_rejects (h : Handle) (l : Logger) (s : Session)
    (tr : list event) (e : error) :
  attached h = false -> id h = VNull -> logger h = Some l ->
  session_send s (attach_msg (name h)) = Rejected e ->
  let res := attach s {| this := h; trace := tr |} in
  fst res = Rejected e /\
  attached (this (snd res)) = false /\
  id (this (snd res)) = VNull /\
  calls "onAttached" (trace (snd res)) = calls "onAttached" tr /\
  emits "attached" (trace (snd res)) = emits "attached" tr.
Proof.
  intros Ha Hi Hl Hs res. subst res.
  rewrite (attach_run_rejected h l s tr e) by assumption.
  cbn [fst snd this trace attached id set_session].
  repeat split; try assumption.
  - rewrite !calls_app, calls_log_events. cbn. lia.
  - rewrite !emits_app, emits_log_events. cbn. lia.
Qed.

Lemma attach_rejects_witness :
  let res := attach (refusing 1) {| this := new_handle None; trace := [] |} in
  fst res = Rejected (Reason error_reply) /\
  attached (this (snd res)) = false /\
  id (this (snd res)) = VNull /\
  calls "onAttached" (trace (snd res)) = calls "onAttached" [] /\
  emits "attached" (trace (snd res)) = emits "attached" [].
Proof.
  exact (attach_rejects (new_handle None) NoopLogger (refusing 1) []
           (Reason error_reply) eq_refl eq_refl eq_refl eq_refl).
Defined.

(** C9. [attach(session)] stores its argument in [this.session] before it
    awaits the reply: when the request is rejected, the handle's [session] is
    the new session, whatever it was before, and every other field,
    [attached] and [id] among them, is as it was. *)
Theorem attach_rejected_keeps_new_session (h : Handle) (l : Logger)
    (s : Session) (tr : list event) (e : error) :
  logger h = Some l ->
  session_send s (attach_msg (name h)) = Rejected e ->
  let res := attach s {| this := h; trace := tr |} in
  fst res = Rejected e /\
  session (this (snd res)) = Some s /\
  attached (this (snd res)) = attached h /\
  id (this (snd res)) = id h /\
  this (snd res) = set_session (Some s) h.
Proof.
  intros Hl Hs res. subst res.
  rewrite (attach_run_rejected h l s tr e) by assumption.
  cbn [fst snd this]. repeat split.
Qed.

Lemma attach_rejected_keeps_new_session_witness :
  let h := set_attached false (attached_handle None (gateway 1 42) (VNum 42)) in
  let res := attach (refusing 2) {| this := h; trace := [] |} in
  fst res = Rejected (Reason error_reply) /\
  session (this (snd res)) = Some (refusing 2) /\
  attached (this (snd res)) = attached h /\
  id (this (snd res)) = id h /\
  this (snd res) = set_session (Some (refusing 2)) h.
Proof.
  exact (attach_rejected_keeps_new_session
           (set_attached false (attached_handle None (gateway 1 42) (VNum 42)))
           NoopLogger (refusing 2) [] (Reason error_reply) eq_refl eq_refl).
Defined.

(** C4. With its logger and session in place, whenever the session resolves
    the detach request, with whatever reply, [detach()] resolves, leaves
    [attached] false, invokes the hook [onDetached] once and emits the event
    detached once. *)
Theorem detach_completes (h : Handle) (l : Logger) (s : Session)
    (tr : list event) (r : value) :
  logger h = Some l -> session h = Some s ->
  session_send s (detach_msg (id h)) = Resolved r ->
  let res := detach {| this := h; trace := tr |} in
  fst res = Resolved VUndefined /\
  attached (this (snd res)) = false /\
  calls "onDetached" (trace (snd res)) = calls "onDetached" tr + 1 /\
  emits "detached" (trace (snd res)) = emits "detached" tr + 1.
Proof.
  intros Hl Hs Hr res. subst res.
  rewrite (detach_run_resolved h l s tr r) by assumption.
  cbn [fst snd this trace]. unfold detach_events. repeat split.
  - rewrite !calls_app, !calls_log_events. reflexivity.
  - rewrite !emits_app, !emits_log_events. reflexivity.
Qed.

Lemma detach_completes_witness :
  let res := detach {| this := attached_handle None (gateway 1 42) (VNum 42);
                       trace := [] |} in
  fst res = Resolved VUndefined /\
  attached (this (snd res)) = false /\
  calls "onDetached" (trace (snd res)) = calls "onDetached" [] + 1 /\
  emits "detached" (trace (snd res)) = emits "detached" [] + 1.
Proof.
  exact (detach_completes (attached_handle None (gateway 1 42) (VNum 42))
           NoopLogger (gateway 1 42) [] ack_reply eq_refl eq_refl eq_refl).
Defined.

(** C10. A completed [detach()] leaves [attached] false and [id] as it was:
    the handle id the gateway assigned stays in [id], which does not go back
    to null, the value it has in [properties]. *)
Theorem detach_keeps_id (h : Handle) (l : Logger) (s : Session)
    (tr : list event) (r : value) :
  logger h = Some l -> session h = Some s ->
  session_send s (detach_msg (id h)) = Resolved r ->
  let res := detach {| this := h; trace := tr |} in
  fst res = Resolved VUndefined /\
  attached (this (snd res)) = false /\
  id (this (snd res)) = id h /\
  (id h <> VNull -> id (this (snd res)) <> id properties).
Proof.
  intros Hl Hs Hr res. subst res.
  rewrite (detach_run_resolved h l s tr r) by assumption.
  cbn [fst snd this]. repeat split. intros Hn. exact Hn.
Qed.

Lemma detach_keeps_id_witness :
  let h := attached_handle None (gateway 1 42) (VNum 42) in
  let res := detach {| this := h; trace := [] |} in
  fst res = Resolved VUndefined /\
  attached (this (snd res)) = false /\
  id (this (snd res)) = VNum 42 /\
  (VNum 42 <> VNull -> id (this (snd res)) <> id properties).
Proof.
  exact (detach_keeps_id (attached_handle None (gateway 1 42) (VNum 42))
           NoopLogger (gateway 1 42) [] ack_reply eq_refl eq_refl eq_refl).
Defined.

(** C7. For every [jsep] and every handle, [sendJsep(jsep)] and
    [sendMessage({}, jsep)] settle in the same way, hand the same messages to
    the session and leave the same handle. *)
Theorem sendJsep_as_sendMessage (jsep : value) (w : World) :
  fst (sendJsep jsep w) = fst (sendMessage (VObj ∅) jsep w) /\
  sent (trace (snd (sendJsep jsep w))) =
    sent (trace (snd (sendMessage (VObj ∅) jsep w))) /\
  this (snd (sendJsep jsep w)) = this (snd (sendMessage (VObj ∅) jsep w)).
Proof.
  destruct w as [h tr]. unfold sendJsep.
  destruct (log h) as [l'|] eqn:Hlog.
  - erewrite bind_resolved by (apply log_debug_some; exact Hlog).
    cbn [this trace]. unfold sendMessage.
    erewrite !bind_resolved by (apply log_debug_some; exact Hlog).
    cbn [this trace].
    destruct (logger h) as [l|] eqn:Hl.
    + destruct (session h) as [s|] eqn:Hs.
      * rewrite !(send_run h l s) by assumption. cbn [fst snd this trace].
        repeat split. now rewrite !sent_app, !sent_log_events, ?app_nil_r.
      * rewrite !(send_run_no_session h l) by assumption.
        cbn [fst snd this trace].
        repeat split. now rewrite !sent_app, !sent_log_events, ?app_nil_r.
    + unfold send.
      erewrite !bind_rejected by (apply logger_debug_none; exact Hl).
      cbn [fst snd this trace].
      repeat split. now rewrite !sent_app, !sent_log_events, ?app_nil_r.
  - erewrite bind_rejected by (apply log_debug_none; exact Hlog).
    unfold sendMessage.
    erewrite bind_rejected by (apply log_debug_none; exact Hlog).
    repeat split.
Qed.

(** C6 (what the code does). On a handle that [init] built and [attach]
    attached, [sendMessage(body, jsep)] rejects with the TypeError of reading
    [debug] of the absent [this.log], for every [body] and [jsep]; no message
    reaches the session and the handle is as before. *)
Theorem sendMessage_rejects_on_init_handle (arg : option Logger) (s : Session)
    (i body jsep : value) (tr : list event) :
  sendMessage body jsep {| this := attached_handle arg s i; trace := tr |} =
  (Rejected (TypeError "debug"),
   {| this := attached_handle arg s i; trace := tr |}).
Proof.
  unfold sendMessage. apply bind_rejected. now apply log_debug_none.
Qed.

(** C8 (what the code does). On a handle that [init] built, attached or not,
    the base [receive(msg)] rejects with the TypeError of reading [debug] of
    the absent [this.log], for every [msg]; the handle is as before. *)
Theorem receive_rejects_on_init_handle (arg : option Logger) (s : Session)
    (i msg : value) (tr : list event) :
  receive msg {| this := new_handle arg; trace := tr |} =
    (Rejected (TypeError "debug"), {| this := new_handle arg; trace := tr |}) /\
  receive msg {| this := attached_handle arg s i; trace := tr |} =
    (Rejected (TypeError "debug"),
     {| this := attached_handle arg s i; trace := tr |}).
Proof.
  split; unfold receive; apply bind_rejected; now apply log_debug_none.
Qed.

(** C3 (counterexample). An attached handle that is asked to attach again
    sends the attach request and resolves; an unattached handle that still
    holds a session sends what [send] is given. *)
Lemma attach_twice_is_sent :
  let h := attached_handle None (gateway 1 42) (VNum 42) in
  let res := attach (gateway 2 43) {| this := h; trace := [] |} in
  let h' := set_attached false h in
  let res' := send {["janus" := VStr "hangup"]} {| this := h'; trace := [] |} in
  attached h = true /\
  fst res = Resolved (success_reply 43) /\
  sent (trace (snd res)) = [(2, attach_msg (VStr "unset"))] /\
  attached h' = false /\
  fst res' = Resolved ack_reply /\
  sent (trace (snd res')) =
    [(1, <["handle_id" := VNum 42]> {["janus" := VStr "hangup"]})] /\
  ~ ((exists e, fst res = Rejected e) /\ sent (trace (snd res)) = []) /\
  ~ ((exists e, fst res' = Rejected e) /\ sent (trace (snd res')) = []).
Proof.
  cbv zeta. repeat split; try reflexivity.
  - intros [[e He] _]. discriminate He.
  - intros [[e He] _]. discriminate He.
Qed.

(** C3 (amended). The handle checks no state before it sends.  With the
    logger of [init] in place, [attach] hands the attach request to the
    session it is given whether [attached] is set or not; [send] hands the
    stamped object to the session the handle holds whether [attached] is set
    or not; and only a handle that holds no session sends nothing, its [send]
    being rejected with the TypeError of reading [send] of null. *)
Theorem no_state_check_before_sending (h : Handle) (l : Logger)
    (tr : list event) :
  logger h = Some l ->
  (forall s : Session,
     sent (trace (snd (attach s {| this := h; trace := tr |}))) =
     sent tr ++ [(session_key s, attach_msg (name h))]) /\
  (forall (s : Session) (obj : gmap string value),
     session h = Some s ->
     fst (send obj {| this := h; trace := tr |}) =
       session_send s (<["handle_id" := id h]> obj) /\
     sent (trace (snd (send obj {| this := h; trace := tr |}))) =
       sent tr ++ [(session_key s, <["handle_id" := id h]> obj)]) /\
  (forall obj : gmap string value,
     session h = None ->
     fst (send obj {| this := h; trace := tr |}) = Rejected (TypeError "send") /\
     sent (trace (snd (send obj {| this := h; trace := tr |}))) = sent tr).
Proof.
  intros Hl. split; [|split].
  - intros s. now apply (attach_sent h l).
  - intros s obj Hs. rewrite (send_run h l s) by assumption.
    cbn [fst snd trace]. split; [reflexivity|].
    now rewrite !sent_app, sent_log_events.
  - intros obj Hs. rewrite (send_run_no_session h l) by assumption.
    cbn [fst snd trace]. split; [reflexivity|].
    now rewrite sent_app, sent_log_events, app_nil_r.
Qed.

Lemma no_state_check_before_sending_witness :
  let h := attached_handle None (gateway 1 42) (VNum 42) in
  (forall s : Session,
     sent (trace (snd (attach s {| this := h; trace := [] |}))) =
     sent [] ++ [(session_key s, attach_msg (name h))]) /\
  (forall (s : Session) (obj : gmap string value),
     session h = Some s ->
     fst (send obj {| this := h; trace := [] |}) =
       session_send s (<["handle_id" := id h]> obj) /\
     sent (trace (snd (send obj {| this := h; trace := [] |}))) =
       sent [] ++ [(session_key s, <["handle_id" := id h]> obj)]) /\
  (forall obj : gmap string value,
     session h = None ->
     fst (send obj {| this := h; trace := [] |}) = Rejected (TypeError "send") /\
     sent (trace (snd (send obj {| this := h; trace := [] |}))) = sent []).
Proof.
  exact (no_state_check_before_sending
           (attached_handle None (gateway 1 42) (VNum 42)) NoopLogger []
           eq_refl).
Defined.

(** * Further properties of the methods *)

(** ** The runs of [send], [attach] and [detach] in every state *)

Lemma send_cases (h : Handle) (tr : list event) (obj : gmap string value) :
  send obj {| this := h; trace := tr |} =
  match logger h with
  | None => (Rejected (TypeError "debug"), {| this := h; trace := tr |})
  | Some l =>
      match session h with
      | None =>
          (Rejected (TypeError "send"),
           {| this := h; trace := tr ++ log_events l Debug "send()" |})
      | Some s =>
          (session_send s (<["handle_id" := id h]> obj),
           {| this := h;
              trace := tr ++ log_events l Debug "send()" ++
                       [ESend (session_key s) (<["handle_id" := id h]> obj)] |})
      end
  end.
Proof.
  destruct (logger h) as [l|] eqn:Hl.
  - destruct (session h) as [s|] eqn:Hs.
    + now apply send_run.
    + now apply send_run_no_session.
  - unfold send. apply bind_rejected. now apply logger_debug_none.
Qed.

Lemma attach_cases (h : Handle) (s : Session) (tr : list event) :
  attach s {| this := h; trace := tr |} =
  match logger h with
  | None => (Rejected (TypeError "debug"), {| this := h; trace := tr |})
  | Some l =>
      let w1 := {| this := set_session (Some s) h;
                   trace := tr ++ log_events l Debug "attach()" ++
                            [ESend (session_key s) (attach_msg (name h))] |} in
      match session_send s (attach_msg (name h)) with
      | Rejected e => (Rejected e, w1)
      | Resolved r =>
          match get_prop r "data" with
          | Rejected e => (Rejected e, w1)
          | Resolved d =>
              match get_prop d "id" with
              | Rejected e => (Rejected e, w1)
              | Resolved i =>
                  (Resolved r,
                   {| this := set_attached true
                                (set_id i (set_session (Some s) h));
                      trace := tr ++ attach_events l s (name h) |})
              end
          end
      end
  end.
Proof.
  destruct (logger h) as [l|] eqn:Hl.
  - cbv zeta.
    destruct (session_send s (attach_msg (name h))) as [r|e] eqn:Hs;
      [|now apply attach_run_rejected].
    unfold attach, onAttached, emit, logger_debug, session_send_call.
    unfold bind, read, update, tell, lift, ret. simpl.
    rewrite Hl. simpl. rewrite Hs.
    destruct (get_prop r "data") as [d|e]; simpl;
      [|now rewrite <- app_assoc].
    destruct (get_prop d "id") as [i|e]; simpl;
      [|now rewrite <- app_assoc].
    rewrite Hl. simpl. unfold attach_events.
    repeat rewrite <- app_assoc. reflexivity.
  - unfold attach. apply bind_rejected. now apply logger_debug_none.
Qed.

Lemma detach_cases (h : Handle) (tr : list event) :
  detach {| this := h; trace := tr |} =
  match logger h with
  | None => (Rejected (TypeError "debug"), {| this := h; trace := tr |})
  | Some l =>
      match session h with
      | None =>
          (Rejected (TypeError "send"),
           {| this := h;
              trace := tr ++ log_events l Debug "detach()" ++
                       log_events l Debug "send()" |})
      | Some s =>
          match session_send s (detach_msg (id h)) with
          | Rejected e =>
              (Rejected e,
               {| this := h;
                  trace := tr ++ log_events l Debug "detach()" ++
                           log_events l Debug "send()" ++
                           [ESend (session_key s) (detach_msg (id h))] |})
          | Resolved _ =>
              (Resolved VUndefined,
               {| this := set_attached false h;
                  trace := tr ++ detach_events l s (id h) |})
          end
      end
  end.
Proof.
  destruct (logger h) as [l|] eqn:Hl.
  - destruct (session h) as [s|] eqn:Hs.
    + destruct (session_send s (detach_msg (id h))) as [r|e] eqn:Hr.
      * now apply (detach_run_resolved h l s tr r).
      * now apply detach_run_rejected.
    + unfold detach.
      erewrite bind_resolved by (apply logger_debug_some; exact Hl).
      cbn [this trace]. apply bind_rejected.
      rewrite send_cases. cbn [logger session]. rewrite Hl, Hs.
      now rewrite <- app_assoc.
  - unfold detach. apply bind_rejected. now apply logger_debug_none.
Qed.

(** A method that starts with [this.log.debug(text)] and goes on as [k]. *)
Lemma log_debug_cases {A} (text : string) (k : M A) (h : Handle)
    (tr : list event) :
  bind (log_debug text) (fun _ => k) {| this := h; trace := tr |} =
  match log h with
  | None => (Rejected (TypeError "debug"), {| this := h; trace := tr |})
  | Some l' => k {| this := h; trace := tr ++ log_events l' Debug text |}
  end.
Proof.
  destruct (log h) as [l'|] eqn:Hlog.
  - now erewrite bind_resolved by (apply log_debug_some; exact Hlog).
  - apply bind_rejected. now apply log_debug_none.
Qed.

Ltac count_events :=
  rewrite ?calls_app, ?emits_app, ?sent_app,
    ?calls_log_events, ?emits_log_events, ?sent_log_events, ?app_nil_r;
  cbn; try lia.

Lemma at_most_one_sent_refl (tr : list event) : at_most_one_sent tr tr.
Proof. exists []. split; [now rewrite app_nil_r | cbn; lia]. Qed.

Lemma at_most_one_sent_logs (tr : list event) (l : Logger) (lvl : level)
    (text : string) (tr' : list event) :
  at_most_one_sent tr tr' ->
  at_most_one_sent tr (tr' ++ log_events l lvl text).
Proof.
  intros (ms & H & Hlen). exists ms.
  now rewrite sent_app, sent_log_events, app_nil_r.
Qed.

Lemma at_most_one_sent_skip (tr tr' : list event) (l : Logger) (lvl : level)
    (text : string) :
  at_most_one_sent (tr ++ log_events l lvl text) tr' ->
  at_most_one_sent tr tr'.
Proof.
  intros (ms & H & Hlen). exists ms.
  now rewrite sent_app, sent_log_events, app_nil_r in H.
Qed.

Lemma send_at_most_one (obj : gmap string value) (h : Handle)
    (tr : list event) :
  at_most_one_sent tr (trace (snd (send obj {| this := h; trace := tr |}))).
Proof.
  rewrite send_cases. destruct (logger h) as [l|]; cbn.
  - destruct (session h) as [s|]; cbn.
    + exists [(session_key s, <["handle_id" := id h]> obj)].
      split; [now count_events | cbn; lia].
    + apply at_most_one_sent_logs, at_most_one_sent_refl.
  - apply at_most_one_sent_refl.
Qed.

Lemma get_prop_obj_missing (o : gmap string value) (k : string) :
  o !! k = None -> get_prop (VObj o) k = Resolved VUndefined.
Proof. intros H. unfold get_prop. now rewrite H. Qed.

(** ** Extras *)



(** X3. The methods that carry plugin traffic, and [receive], never change
    the handle, in any state and whatever the outcome: [hangup] in
    particular leaves [attached] as it is. *)
Theorem traffic_keeps_handle (w : World) (obj : gmap string value)
    (body jsep candidate msg : value) :
  this (snd (send obj w)) = this w /\
  this (snd (sendMessage body jsep w)) = this w /\
  this (snd (sendJsep jsep w)) = this w /\
  this (snd (sendTrickle candidate w)) = this w /\
  this (snd (hangup w)) = this w /\
  this (snd (receive msg w)) = this w.
Proof.
  destruct w as [h tr]. cbn [this].
  split; [apply (send_keeps_handle obj {| this := h; trace := tr |})|].
  unfold sendJsep, sendMessage, sendTrickle, hangup, receive.
  rewrite !log_debug_cases.
  destruct (log h) as [l'|] eqn:Hlog; [|now repeat split].
  rewrite !log_debug_cases, Hlog.
  repeat split; try apply (send_keeps_handle _ {| this := h; trace := _ |}).
Qed.

(** X4. No method sends twice: in any state and whatever the outcome, one
    call of [attach], [detach], [send], [sendMessage], [sendJsep],
    [sendTrickle] or [hangup] hands at most one message to a session, and
    [receive] hands none. *)
Theorem one_call_one_message_at_most (s : Session) (w : World)
    (obj : gmap string value) (body jsep candidate msg : value) :
  at_most_one_sent (trace w) (trace (snd (attach s w))) /\
  at_most_one_sent (trace w) (trace (snd (detach w))) /\
  at_most_one_sent (trace w) (trace (snd (send obj w))) /\
  at_most_one_sent (trace w) (trace (snd (sendMessage body jsep w))) /\
  at_most_one_sent (trace w) (trace (snd (sendJsep jsep w))) /\
  at_most_one_sent (trace w) (trace (snd (sendTrickle candidate w))) /\
  at_most_one_sent (trace w) (trace (snd (hangup w))) /\
  sent (trace (snd (receive msg w))) = sent (trace w).
Proof.
  destruct w as [h tr]. cbn [trace].
  split; [|split; [|split; [apply send_at_most_one|]]].
  - rewrite attach_cases. destruct (logger h) as [l|];
      [|apply at_most_one_sent_refl].
    cbv zeta.
    assert (at_most_one_sent tr
              (tr ++ log_events l Debug "attach()" ++
               [ESend (session_key s) (attach_msg (name h))])) as Hone.
    { exists [(session_key s, attach_msg (name h))].
      split; [now count_events | cbn; lia]. }
    destruct (session_send s (attach_msg (name h))) as [r|e]; [|exact Hone].
    destruct (get_prop r "data") as [d|e]; [|exact Hone].
    destruct (get_prop d "id") as [i|e]; [|exact Hone].
    cbn [snd trace]. exists [(session_key s, attach_msg (name h))].
    unfold attach_events. split; [now count_events | cbn; lia].
  - rewrite detach_cases. destruct (logger h) as [l|];
      [|apply at_most_one_sent_refl].
    destruct (session h) as [s'|].
    + destruct (session_send s' (detach_msg (id h))) as [r|e]; cbn [snd trace];
        exists [(session_key s', detach_msg (id h))]; unfold detach_events;
        (split; [now count_events | cbn; lia]).
    + cbn [snd trace]. exists []. split; [now count_events | cbn; lia].
  - unfold sendJsep, sendMessage, sendTrickle, hangup, receive.
    rewrite !log_debug_cases.
    destruct (log h) as [l'|] eqn:Hlog;
      [|repeat split; apply at_most_one_sent_refl].
    rewrite !log_debug_cases, Hlog.
    split; [|split; [|split; [|split]]].
    + eapply at_most_one_sent_skip. apply send_at_most_one.
    + eapply at_most_one_sent_skip, at_most_one_sent_skip.
      apply send_at_most_one.
    + eapply at_most_one_sent_skip. apply send_at_most_one.
    + eapply at_most_one_sent_skip. apply send_at_most_one.
    + cbn [snd trace ret]. now rewrite sent_app, sent_log_events, app_nil_r.
Qed.

(** X5. A handle on which [init] never ran has no [logger]: [attach],
    [detach] and [send] then reject at their first line with the TypeError of
    reading [debug], and nothing else happens; [attach] does not even store
    the session. *)
Theorem methods_need_logger (s : Session) (w : World)
    (obj : gmap string value) :
  logger (this w) = None ->
  attach s w = (Rejected (TypeError "debug"), w) /\
  detach w = (Rejected (TypeError "debug"), w) /\
  send obj w = (Rejected (TypeError "debug"), w).
Proof.
  intros Hl. destruct w as [h tr]. cbn [this] in Hl.
  rewrite attach_cases, detach_cases, send_cases, Hl. now repeat split.
Qed.

Lemma methods_need_logger_witness :
  let w := {| this := properties; trace := [] |} in
  attach (gateway 1 42) w = (Rejected (TypeError "debug"), w) /\
  detach w = (Rejected (TypeError "debug"), w) /\
  send {["janus" := VStr "hangup"]} w = (Rejected (TypeError "debug"), w).
Proof.
  exact (methods_need_logger (gateway 1 42)
           {| this := properties; trace := [] |}
           {["janus" := VStr "hangup"]} eq_refl).
Defined.

(** X6. When the session resolves the attach request with an object that
    has no [data], [attach] rejects with the TypeError of reading [id] of
    undefined.  The request was sent and the session is stored, but
    [attached] and [id] are as before. *)
Theorem attach_reply_without_data (h : Handle) (l : Logger) (s : Session)
    (tr : list event) (ro : gmap string value) :
  logger h = Some l ->
  session_send s (attach_msg (name h)) = Resolved (VObj ro) ->
  ro !! "data" = None ->
  let res := attach s {| this := h; trace := tr |} in
  fst res = Rejected (TypeError "id") /\
  this (snd res) = set_session (Some s) h /\
  sent (trace (snd res)) = sent tr ++ [(session_key s, attach_msg (name h))].
Proof.
  intros Hl Hs Hd res. subst res. rewrite attach_cases, Hl. cbv zeta.
  rewrite Hs, (get_prop_obj_missing _ _ Hd). cbn.
  repeat split. now count_events.
Qed.

Lemma attach_reply_without_data_witness :
  let s := answering 1 (Resolved ack_reply) in
  let res := attach s {| this := new_handle None; trace := [] |} in
  fst res = Rejected (TypeError "id") /\
  this (snd res) = set_session (Some s) (new_handle None) /\
  sent (trace (snd res)) = sent [] ++ [(1, attach_msg (VStr "unset"))].
Proof.
  exact (attach_reply_without_data (new_handle None) NoopLogger
           (answering 1 (Resolved ack_reply)) [] {["janus" := VStr "ack"]}
           eq_refl eq_refl eq_refl).
Defined.

(** X7. When the session resolves the attach request with [undefined] or
    [null], [attach] rejects with the TypeError of reading [data]; the
    request was sent, the session is stored, [attached] and [id] are as
    before. *)
Theorem attach_reply_nullish (h : Handle) (l : Logger) (s : Session)
    (tr : list event) (r : value) :
  logger h = Some l ->
  session_send s (attach_msg (name h)) = Resolved r ->
  r = VUndefined \/ r = VNull ->
  let res := attach s {| this := h; trace := tr |} in
  fst res = Rejected (TypeError "data") /\
  this (snd res) = set_session (Some s) h /\
  sent (trace (snd res)) = sent tr ++ [(session_key s, attach_msg (name h))].
Proof.
  intros Hl Hs Hr res. subst res. rewrite attach_cases, Hl. cbv zeta.
  rewrite Hs. destruct Hr as [-> | ->]; cbn; repeat split; now count_events.
Qed.

Lemma attach_reply_nullish_witness :
  let s := answering 1 (Resolved VUndefined) in
  let res := attach s {| this := new_handle None; trace := [] |} in
  fst res = Rejected (TypeError "data") /\
  this (snd res) = set_session (Some s) (new_handle None) /\
  sent (trace (snd res)) = sent [] ++ [(1, attach_msg (VStr "unset"))].
Proof.
  exact (attach_reply_nullish (new_handle None) NoopLogger
           (answering 1 (Resolved VUndefined)) [] VUndefined
           eq_refl eq_refl (or_introl eq_refl)).
Defined.

(** X8. When the reply to the attach request has a [data] object without
    [id], [attach] still resolves and sets [attached]: the handle is
    attached with [id] undefined. *)
Theorem attach_reply_without_id (h : Handle) (l : Logger) (s : Session)
    (tr : list event) (ro d : gmap string value) :
  logger h = Some l ->
  session_send s (attach_msg (name h)) = Resolved (VObj ro) ->
  ro !! "data" = Some (VObj d) -> d !! "id" = None ->
  let res := attach s {| this := h; trace := tr |} in
  fst res = Resolved (VObj ro) /\
  attached (this (snd res)) = true /\
  id (this (snd res)) = VUndefined /\
  emits "attached" (trace (snd res)) = emits "attached" tr + 1.
Proof.
  intros Hl Hs Hd Hi res. subst res. rewrite attach_cases, Hl. cbv zeta.
  rewrite Hs, (get_prop_obj _ _ _ Hd), (get_prop_obj_missing _ _ Hi).
  cbn [fst snd this trace attached id set_attached set_id].
  unfold attach_events. repeat split. count_events.
Qed.

Lemma attach_reply_without_id_witness :
  let r := VObj {["data" := VObj ∅]} in
  let res := attach (answering 1 (Resolved r))
               {| this := new_handle None; trace := [] |} in
  fst res = Resolved r /\
  attached (this (snd res)) = true /\
  id (this (snd res)) = VUndefined /\
  emits "attached" (trace (snd res)) = emits "attached" [] + 1.
Proof.
  exact (attach_reply_without_id (new_handle None) NoopLogger
           (answering 1 (Resolved (VObj {["data" := VObj ∅]}))) []
           {["data" := VObj ∅]} ∅ eq_refl eq_refl eq_refl eq_refl).
Defined.

(** X9. When the session rejects the detach request, [detach] rejects with
    the session's reason; the request was sent and the handle is as before,
    still attached if it was. *)
Theorem detach_rejected_propagates (h : Handle) (l : Logger) (s : Session)
    (tr : list event) (e : error) :
  logger h = Some l -> session h = Some s ->
  session_send s (detach_msg (id h)) = Rejected e ->
  let res := detach {| this := h; trace := tr |} in
  fst res = Rejected e /\
  this (snd res) = h /\
  sent (trace (snd res)) = sent tr ++ [(session_key s, detach_msg (id h))].
Proof.
  intros Hl Hs Hr res. subst res. rewrite detach_cases, Hl, Hs, Hr.
  cbn [fst snd this trace]. repeat split. now count_events.
Qed.

Lemma detach_rejected_propagates_witness :
  let h := attached_handle None (refusing 1) (VNum 42) in
  let res := detach {| this := h; trace := [] |} in
  fst res = Rejected (Reason error_reply) /\
  this (snd res) = h /\
  sent (trace (snd res)) = sent [] ++ [(1, detach_msg (VNum 42))].
Proof.
  exact (detach_rejected_propagates
           (attached_handle None (refusing 1) (VNum 42)) NoopLogger
           (refusing 1) [] (Reason error_reply) eq_refl eq_refl eq_refl).
Defined.

(** X10. [detach] before any [attach]: on a handle that holds no session
    [detach] rejects with the TypeError of reading [send] of null, sends
    nothing and leaves the handle as it is. *)
Theorem detach_without_session (h : Handle) (l : Logger) (tr : list event) :
  logger h = Some l -> session h = None ->
  let res := detach {| this := h; trace := tr |} in
  fst res = Rejected (TypeError "send") /\
  this (snd res) = h /\
  sent (trace (snd res)) = sent tr.
Proof.
  intros Hl Hs res. subst res. rewrite detach_cases, Hl, Hs.
  cbn [fst snd this trace]. repeat split. now count_events.
Qed.

Lemma detach_without_session_witness :
  let res := detach {| this := new_handle None; trace := [] |} in
  fst res = Rejected (TypeError "send") /\
  this (snd res) = new_handle None /\
  sent (trace (snd res)) = sent [].
Proof.
  exact (detach_without_session (new_handle None) NoopLogger []
           eq_refl eq_refl).
Defined.

(** X11. On a handle with a [log] member, its logger and a session,
    [sendMessage(body, jsep)] hands the session one message and settles as
    the session does.  The message has [janus] message, the body (the
    default [{}] only when [body] is undefined: a null body stays null),
    [handle_id], and [jsep] exactly when the argument is truthy: a [jsep] of
    [null], [0], [false] or the empty string is not sent.  It has no other
    field. *)
Theorem sendMessage_with_log (h : Handle) (l l' : Logger) (s : Session)
    (tr : list event) (body jsep : value) :
  log h = Some l' -> logger h = Some l -> session h = Some s ->
  let res := sendMessage body jsep {| this := h; trace := tr |} in
  exists m : gmap string value,
    fst res = session_send s m /\
    sent (trace (snd res)) = sent tr ++ [(session_key s, m)] /\
    m !! "janus" = Some (VStr "message") /\
    m !! "body" = Some (body_or_default body) /\
    m !! "jsep" = (if to_boolean jsep then Some jsep else None) /\
    m !! "handle_id" = Some (id h) /\
    (forall k : string,
       k <> "janus" -> k <> "body" -> k <> "jsep" -> k <> "handle_id" ->
       m !! k = None).
Proof.
  intros Hlog Hl Hs res. subst res.
  exists (<["handle_id" := id h]> (message_msg (body_or_default body) jsep)).
  unfold sendMessage. rewrite log_debug_cases, Hlog, send_cases, Hl, Hs.
  cbn [fst snd this trace]. fold (body_or_default body).
  split; [reflexivity|]. split; [now count_events|].
  unfold message_msg. destruct (to_boolean jsep);
    repeat split; try (by simplify_map_eq);
    intros k H1 H2 H3 H4; by simplify_map_eq.
Qed.

Lemma sendMessage_with_log_witness :
  let h := set_log (Some NoopLogger)
             (attached_handle None (gateway 1 42) (VNum 42)) in
  let res := sendMessage VUndefined VNull {| this := h; trace := [] |} in
  exists m : gmap string value,
    fst res = session_send (gateway 1 42) m /\
    sent (trace (snd res)) = sent [] ++ [(1, m)] /\
    m !! "janus" = Some (VStr "message") /\
    m !! "body" = Some (VObj ∅) /\
    m !! "jsep" = None /\
    m !! "handle_id" = Some (VNum 42) /\
    (forall k : string,
       k <> "janus" -> k <> "body" -> k <> "jsep" -> k <> "handle_id" ->
       m !! k = None).
Proof.
  exact (sendMessage_with_log
           (set_log (Some NoopLogger)
              (attached_handle None (gateway 1 42) (VNum 42)))
           NoopLogger NoopLogger (gateway 1 42) [] VUndefined VNull
           eq_refl eq_refl eq_refl).
Defined.

(** X12. On a handle with a [log] member, its logger and a session,
    [sendTrickle(candidate)] hands the session one message and settles as
    the session does.  The message has [janus] trickle, [handle_id] and the
    candidate as it was given, a [null] (the end of the candidates) included,
    and no other field. *)
Theorem sendTrickle_with_log (h : Handle) (l l' : Logger) (s : Session)
    (tr : list event) (candidate : value) :
  log h = Some l' -> logger h = Some l -> session h = Some s ->
  let res := sendTrickle candidate {| this := h; trace := tr |} in
  exists m : gmap string value,
    fst res = session_send s m /\
    sent (trace (snd res)) = sent tr ++ [(session_key s, m)] /\
    m !! "janus" = Some (VStr "trickle") /\
    m !! "candidate" = Some candidate /\
    m !! "handle_id" = Some (id h) /\
    (forall k : string,
       k <> "janus" -> k <> "candidate" -> k <> "handle_id" -> m !! k = None).
Proof.
  intros Hlog Hl Hs res. subst res.
  exists (<["handle_id" := id h]>
            (<["candidate" := candidate]> {["janus" := VStr "trickle"]})).
  unfold sendTrickle. rewrite log_debug_cases, Hlog, send_cases, Hl, Hs.
  cbn [fst snd this trace].
  split; [reflexivity|]. split; [now count_events|].
  repeat split; try (by simplify_map_eq).
  intros k H1 H2 H3; by simplify_map_eq.
Qed.

Lemma sendTrickle_with_log_witness :
  let h := set_log (Some NoopLogger)
             (attached_handle None (gateway 1 42) (VNum 42)) in
  let res := sendTrickle VNull {| this := h; trace := [] |} in
  exists m : gmap string value,
    fst res = session_send (gateway 1 42) m /\
    sent (trace (snd res)) = sent [] ++ [(1, m)] /\
    m !! "janus" = Some (VStr "trickle") /\
    m !! "candidate" = Some VNull /\
    m !! "handle_id" = Some (VNum 42) /\
    (forall k : string,
       k <> "janus" -> k <> "candidate" -> k <> "handle_id" -> m !! k = None).
Proof.
  exact (sendTrickle_with_log
           (set_log (Some NoopLogger)
              (attached_handle None (gateway 1 42) (VNum 42)))
           NoopLogger NoopLogger (gateway 1 42) [] VNull
           eq_refl eq_refl eq_refl).
Defined.

(** X13. On a handle with a [log] member, its logger and a session,
    [hangup()] hands the session one message, which has [janus] hangup and
    [handle_id] and nothing else, and settles as the session does; the handle
    stays attached. *)
Theorem hangup_with_log (h : Handle) (l l' : Logger) (s : Session)
    (tr : list event) :
  log h = Some l' -> logger h = Some l -> session h = Some s ->
  let res := hangup {| this := h; trace := tr |} in
  exists m : gmap string value,
    fst res = session_send s m /\
    sent (trace (snd res)) = sent tr ++ [(session_key s, m)] /\
    m !! "janus" = Some (VStr "hangup") /\
    m !! "handle_id" = Some (id h) /\
    (forall k : string, k <> "janus" -> k <> "handle_id" -> m !! k = None) /\
    attached (this (snd res)) = attached h.
Proof.
  intros Hlog Hl Hs res. subst res.
  exists (<["handle_id" := id h]> {["janus" := VStr "hangup"]}).
  unfold hangup. rewrite log_debug_cases, Hlog, send_cases, Hl, Hs.
  cbn [fst snd this trace].
  split; [reflexivity|]. split; [now count_events|].
  repeat split; try (by simplify_map_eq).
  intros k H1 H2; by simplify_map_eq.
Qed.

Lemma hangup_with_log_witness :
  let h := set_log (Some NoopLogger)
             (attached_handle None (gateway 1 42) (VNum 42)) in
  let res := hangup {| this := h; trace := [] |} in
  exists m : gmap string value,
    fst res = session_send (gateway 1 42) m /\
    sent (trace (snd res)) = sent [] ++ [(1, m)] /\
    m !! "janus" = Some (VStr "hangup") /\
    m !! "handle_id" = Some (VNum 42) /\
    (forall k : string, k <> "janus" -> k <> "handle_id" -> m !! k = None) /\
    attached (this (snd res)) = true.
Proof.
  exact (hangup_with_log
           (set_log (Some NoopLogger)
              (attached_handle None (gateway 1 42) (VNum 42)))
           NoopLogger NoopLogger (gateway 1 42) [] eq_refl eq_refl eq_refl).
Defined.



(** X15. [attach] and [send] compose: after an attach that the session
    resolved with [data.id] equal to [n], [send(obj)] hands that same session
    the object stamped with [handle_id] equal to [n]. *)
Theorem send_after_attach (h : Handle) (l : Logger) (s : Session)
    (tr : list event) (ro d : gmap string value) (n : value)
    (obj : gmap string value) :
  logger h = Some l ->
  session_send s (attach_msg (name h)) = Resolved (VObj ro) ->
  ro !! "data" = Some (VObj d) -> d !! "id" = Some n ->
  let w1 := snd (attach s {| this := h; trace := tr |}) in
  let res := send obj w1 in
  fst res = session_send s (<["handle_id" := n]> obj) /\
  sent (trace (snd res)) =
    sent tr ++ [(session_key s, attach_msg (name h));
                (session_key s, <["handle_id" := n]> obj)].
Proof.
  intros Hl Hs Hd Hi w1 res. subst res w1.
  rewrite (attach_run_resolved h l s tr ro d n) by assumption.
  cbn [snd]. rewrite send_cases.
  cbn [logger session id set_attached set_id set_session]. rewrite Hl.
  cbn [fst snd trace]. split; [reflexivity|].
  unfold attach_events. count_events. now rewrite <- app_assoc.
Qed.

Lemma send_after_attach_witness :
  let obj : gmap string value := {["janus" := VStr "keepalive"]} in
  let w1 := snd (attach (gateway 1 42)
                   {| this := new_handle None; trace := [] |}) in
  let res := send obj w1 in
  fst res = session_send (gateway 1 42) (<["handle_id" := VNum 42]> obj) /\
  sent (trace (snd res)) =
    sent [] ++ [(1, attach_msg (VStr "unset"));
                (1, <["handle_id" := VNum 42]> obj)].
Proof.
  exact (send_after_attach (new_handle None) NoopLogger (gateway 1 42) []
           (<["data" := VObj {["id" := VNum 42]}]> {["janus" := VStr "success"]})
           {["id" := VNum 42]} (VNum 42) {["janus" := VStr "keepalive"]}
           eq_refl eq_refl eq_refl eq_refl).
Defined.

(** X16. [detach] does not cut the handle off: after a completed detach,
    [send(obj)] still hands the object to the session the handle was attached
    through, stamped with the handle id it had. *)
Theorem send_after_detach (h : Handle) (l : Logger) (s : Session)
    (tr : list event) (r : value) (obj : gmap string value) :
  logger h = Some l -> session h = Some s ->
  session_send s (detach_msg (id h)) = Resolved r ->
  let w1 := snd (detach {| this := h; trace := tr |}) in
  let res := send obj w1 in
  attached (this w1) = false /\
  fst res = session_send s (<["handle_id" := id h]> obj) /\
  sent (trace (snd res)) =
    sent tr ++ [(session_key s, detach_msg (id h));
                (session_key s, <["handle_id" := id h]> obj)].
Proof.
  intros Hl Hs Hr w1 res. subst res w1.
  rewrite (detach_run_resolved h l s tr r) by assumption.
  cbn [snd this]. split; [reflexivity|]. rewrite send_cases.
  cbn [logger session id set_attached]. rewrite Hl, Hs.
  cbn [fst snd trace]. split; [reflexivity|].
  unfold detach_events. count_events. now rewrite <- app_assoc.
Qed.

Lemma send_after_detach_witness :
  let h := attached_handle None (gateway 1 42) (VNum 42) in
  let obj : gmap string value := {["janus" := VStr "keepalive"]} in
  let w1 := snd (detach {| this := h; trace := [] |}) in
  let res := send obj w1 in
  attached (this w1) = false /\
  fst res = session_send (gateway 1 42) (<["handle_id" := VNum 42]> obj) /\
  sent (trace (snd res)) =
    sent [] ++ [(1, detach_msg (VNum 42));
                (1, <["handle_id" := VNum 42]> obj)].
Proof.
  exact (send_after_detach (attached_handle None (gateway 1 42) (VNum 42))
           NoopLogger (gateway 1 42) [] ack_reply
           {["janus" := VStr "keepalive"]} eq_refl eq_refl eq_refl).
Defined.

End BasePlugin.
